(** * MDX component context and the [agentchat.utils] reference page

    A shallow embedding of the webpack chunk
    [assets/js/c9d3b4a1.2a47c75d.js].  The chunk registers two modules:

    - module 11151, the MDX component context: the shared default object
      [a], the context [r], the hook [c] (exported as [a]) and the provider
      [o] (exported as [Z]);
    - module 16956, the page: the constants [r], [c], [o], [l], [i] and the
      functions [u] and [d].

    JavaScript objects used as component tables are finite maps from
    property names to renderers ([gmap string renderer]); the object spread
    [{...x, ...y}] is the union in which the later operand wins.

    Where the identity of objects matters, namely for what the functions do
    to objects that exist before they are called, the same four functions are
    embedded a second time over a store of cells ([Store]): an object is a
    reference, an object literal allocates, and a function of the caller may
    read and write the store. *)

From stdpp Require Import gmap strings list fin_maps pretty.

(** ** JavaScript values *)

(** What a component table holds under a tag name: the name of a host
    element (a string such as ["h3"]) or a component function, which the
    chunk never calls itself and which is therefore kept by name only.  A
    caller can also put [undefined] or [null] under a key; an object spread
    copies such an entry like any other. *)
Inductive renderer : Type :=
| Intrinsic (tag : string)
| Component (name : string)
| EntryUndefined
| EntryNull.

#[global] Instance renderer_eq_dec : EqDecision renderer.
Proof. solve_decision. Defined.

Abbreviation mapping := (gmap string renderer).

(** The values that reach the [components] and [disableParentContext]
    properties and the context.  Functions are closures of an arbitrary type
    [fn]; how a closure is applied is given separately (the [call] of the
    sections below), so that results hold for every function. *)
Inductive value (fn : Type) : Type :=
| VUndefined
| VNull
| VBool (b : bool)
| VMapping (m : mapping)
| VFunction (f : fn).

Arguments VUndefined {fn}.
Arguments VNull {fn}.
Arguments VBool {fn} b.
Arguments VMapping {fn} m.
Arguments VFunction {fn} f.

(** JavaScript's ToBoolean: [undefined], [null] and [false] are falsy, every
    object (an empty one too) and every function is truthy. *)
Definition truthy {fn} (v : value fn) : bool :=
  match v with
  | VUndefined | VNull => false
  | VBool b => b
  | VMapping _ | VFunction _ => true
  end.

(** [x || y]. *)
Definition js_or {fn} (x y : value fn) : value fn :=
  if truthy x then x else y.

(** Truthiness of a table entry: the empty string, [undefined] and [null]
    are falsy. *)
Definition renderer_truthy (x : renderer) : bool :=
  match x with
  | Intrinsic tag => negb (String.eqb tag EmptyString)
  | Component _ => true
  | EntryUndefined | EntryNull => false
  end.

(** The own enumerable properties an object spread copies out of a value:
    those of an object; nothing for [undefined], [null], a boolean or a
    function. *)
Definition own_props {fn} (v : value fn) : mapping :=
  match v with
  | VMapping m => m
  | _ => ∅
  end.

(** One spread element [...src] inside an object literal whose properties so
    far are [target]: every property of [src] is set on the literal,
    replacing a property of the same name. *)
Definition spread {fn} (target : mapping) (src : value fn) : mapping :=
  own_props src ∪ target.

(** ** The rendering framework, as far as the chunk uses it *)

(** A hook runs during a render and reads the value of the nearest enclosing
    provider, if there is one. *)
Definition Hook (fn A : Type) : Type := option (value fn) → A.

#[global] Instance hook_ret {fn} : MRet (Hook fn) := λ A x _, x.
#[global] Instance hook_bind {fn} : MBind (Hook fn) :=
  λ A B k m ambient, k (m ambient) ambient.

Record context (fn : Type) : Type := { defaultValue : value fn }.
Arguments defaultValue {fn} _.

Definition createContext {fn} (v : value fn) : context fn :=
  {| defaultValue := v |}.

(** [useContext(r)]: the nearest provider's value, the context's default
    when no provider encloses the caller. *)
Definition useContext {fn} (r : context fn) : Hook fn (value fn) :=
  λ ambient, default (defaultValue r) ambient.

(** [useMemo(f, deps)] returns what [f()] returns; the cache it keeps between
    renders only saves recomputation. *)
Definition useMemo {fn A} (f : unit → A) (deps : list (value fn)) : Hook fn A :=
  mret (f tt).

#[local] Unset Elimination Schemes.

(** Elements: text, [jsx(type, props)] and fragments; the [children] property
    is kept apart from the other properties.  [T] is the type of the element
    types: member names of the component table in the body as written, table
    entries once the table has been consulted. *)
Inductive element (T : Type) : Type :=
| Text (s : string)
| Jsx (type : T) (props : list (string * string)) (children : list (element T))
| Fragment (children : list (element T)).

#[local] Set Elimination Schemes.

Arguments Text {T} s.
Arguments Jsx {T} type props children.
Arguments Fragment {T} children.

Fixpoint emap {T U} (f : T → U) (x : element T) : element U :=
  match x with
  | Text s => Text s
  | Jsx type props children => Jsx (f type) props (List.map (emap f) children)
  | Fragment children => Fragment (List.map (emap f) children)
  end.

(** The element types an element tree mentions, in document order. *)
Fixpoint types_used {T} (x : element T) : list T :=
  match x with
  | Text _ => []
  | Jsx type _ children => type :: flat_map types_used children
  | Fragment children => flat_map types_used children
  end.

(** [createElement(r.Provider, {value: v}, children)]. *)
Record provider_element (fn node : Type) : Type :=
  { provider_value : value fn; provider_children : node }.
Arguments provider_value {fn node} _.
Arguments provider_children {fn node} _.

(** ** Module 11151: the component context *)

Module M11151.

Section Context.
Context {fn : Type}.
(** Application of a function value to one argument. *)
Variable call : fn → value fn → value fn.
(** What the provider is handed as [children]; it passes them on untouched. *)
Context {node : Type}.

Record props : Type :=
  { disableParentContext : value fn;
    components : value fn;
    children : node }.

(** [const a = {}] *)
Definition a : value fn := VMapping ∅.

(** [const r = s.createContext(a)] *)
Definition r : context fn := createContext a.

(** [function c(e) { const t = s.useContext(r);
      return s.useMemo(function () {
        return "function" == typeof e ? e(t) : {...t, ...e} }, [t, e]) }] *)
Definition c (e : value fn) : Hook fn (value fn) :=
  t ← useContext r;
  useMemo (λ _, match e with
                | VFunction f => call f t
                | _ => VMapping (spread (spread ∅ t) e)
                end) [t; e].

(** [function o(e) { let t;
      return t = e.disableParentContext
        ? "function" == typeof e.components ? e.components(a) : e.components || a
        : c(e.components),
      s.createElement(r.Provider, {value: t}, e.children) }] *)
Definition o (e : props) : Hook fn (provider_element fn node) :=
  t ← (if truthy (disableParentContext e)
       then mret (match components e with
                  | VFunction f => call f a
                  | v => js_or v a
                  end)
       else c (components e));
  mret {| provider_value := t; provider_children := children e |}.

End Context.

End M11151.

(** ** Module 16956: the page *)

Module M16956.

Record front_matter : Type :=
  { sidebar_label : string; fm_title : string }.

Record nav_link : Type :=
  { link_title : string; link_permalink : string }.

Record page_metadata : Type :=
  { meta_id : string;
    title : string;
    description : string;
    source : string;
    sourceDirName : string;
    slug : string;
    permalink : string;
    draft : bool;
    unlisted : bool;
    editUrl : string;
    tags : list string;
    version : string;
    frontMatter : front_matter;
    sidebar : string;
    previous : nav_link;
    next : nav_link }.

Record toc_entry : Type :=
  { toc_value : string; toc_id : string; toc_level : nat }.

(** [const r = {sidebar_label: "utils", title: "agentchat.utils"}] *)
Definition r : front_matter :=
  {| sidebar_label := "utils"; fm_title := "agentchat.utils" |}.

(** [c = void 0] *)
Definition c : option string := None.

(** [o = {id: "reference/agentchat/utils", ...}]; the two backslashes of the
    description are the characters the source's escapes denote. *)
Definition o : page_metadata :=
  {| meta_id := "reference/agentchat/utils";
     title := "agentchat.utils";
     description := "gather\usage\summary";
     source := "@site/docs/reference/agentchat/utils.md";
     sourceDirName := "reference/agentchat";
     slug := "/reference/agentchat/utils";
     permalink := "/autogen/docs/reference/agentchat/utils";
     draft := false;
     unlisted := false;
     editUrl := "https://github.com/microsoft/autogen/edit/main/website/docs/reference/agentchat/utils.md";
     tags := [];
     version := "current";
     frontMatter := {| sidebar_label := "utils"; fm_title := "agentchat.utils" |};
     sidebar := "referenceSideBar";
     previous := {| link_title := "user_proxy_agent";
                    link_permalink := "/autogen/docs/reference/agentchat/user_proxy_agent" |};
     next := {| link_title := "abstract_cache_base";
                link_permalink := "/autogen/docs/reference/cache/abstract_cache_base" |} |}.

(** [l = {}] *)
Definition l : gmap string string := ∅.

(** [i = [{value: "gather_usage_summary", id: "gather_usage_summary", level: 3}]] *)
Definition i : list toc_entry :=
  [ {| toc_value := "gather_usage_summary";
       toc_id := "gather_usage_summary";
       toc_level := 3 |} ].

(** The line feed and the double quote of the source's string literals. *)
Definition nl : string := String (Ascii.ascii_of_nat 10) EmptyString.
Definition dq : string := String (Ascii.ascii_of_nat 34) EmptyString.

(** The text made of the given lines, each ended by a line feed. *)
Definition lines (ls : list string) : string :=
  foldr (λ s rest, s +:+ nl +:+ rest) EmptyString ls.

Definition quoted (s : string) : string := dq +:+ s +:+ dq.

Definition signature_code : string :=
  lines [ "def gather_usage_summary(";
          "        agents: List[Agent]) -> Tuple[Dict[str, any], Dict[str, any]]" ].

Definition example_code : string :=
  lines [ "total_usage_summary = {";
          "    " +:+ quoted "total_cost" +:+ ": 0.0006090000000000001,";
          "    " +:+ quoted "gpt-35-turbo" +:+ ": {";
          "            " +:+ quoted "cost" +:+ ": 0.0006090000000000001,";
          "            " +:+ quoted "prompt_tokens" +:+ ": 242,";
          "            " +:+ quoted "completion_tokens" +:+ ": 123,";
          "            " +:+ quoted "total_tokens" +:+ ": 365";
          "    }";
          "}" ].

(** The element tree [u] returns, with every [t.x] kept as the member name
    [x] it reads from the component table [t]. *)
Definition page_body : element string :=
  Fragment
    [ Jsx "h3" [("id", "gather_usage_summary")] [Text "gather_usage_summary"];
      Text nl;
      Jsx "pre" [] [Jsx "code" [("className", "language-python")] [Text signature_code]];
      Text nl;
      Jsx "p" [] [Text "Gather usage summary from all agents."];
      Text nl;
      Jsx "p" [] [Jsx "strong" [] [Text "Arguments"]; Text ":"];
      Text nl;
      Jsx "ul" []
        [ Text nl;
          Jsx "li" [] [Jsx "code" [] [Text "agents"]; Text " - (list): List of agents."];
          Text nl ];
      Text nl;
      Jsx "p" [] [Jsx "strong" [] [Text "Returns"]; Text ":"];
      Text nl;
      Jsx "ul" []
        [ Text nl;
          Jsx "li" []
            [ Jsx "code" [] [Text "tuple"];
              Text " - (total_usage_summary, actual_usage_summary)" ];
          Text nl ];
      Text nl;
      Jsx "p" [] [Jsx "strong" [] [Text "Example"]; Text ":"];
      Text nl;
      Jsx "pre" [] [Jsx "code" [("className", "language-python")] [Text example_code]];
      Text nl;
      Jsx "p" [] [Jsx "strong" [] [Text "Notes"]; Text ":"];
      Text nl;
      Jsx "p" []
        [ Jsx "code" [] [Text "actual_usage_summary"];
          Text (" follows the same format." +:+ nl +:+
                "If none of the agents incurred any cost (not having a client), then the total_usage_summary and actual_usage_summary will be ");
          Jsx "code" [] [Text "{'total_cost': 0}"];
          Text "." ] ].

(** The properties with which [t] starts:
    [{code: "code", h3: "h3", li: "li", p: "p", pre: "pre", strong: "strong",
      ul: "ul", ...}]. *)
Definition defaults : mapping :=
  list_to_map
    [ ("code", Intrinsic "code"); ("h3", Intrinsic "h3"); ("li", Intrinsic "li");
      ("p", Intrinsic "p"); ("pre", Intrinsic "pre");
      ("strong", Intrinsic "strong"); ("ul", Intrinsic "ul") ].

Section Page.
Context {fn : Type}.
Variable call : fn → value fn → value fn.

(** The properties of the page component the chunk reads. *)
Record props : Type := { components : value fn }.

(** [const t = {code: "code", ..., ul: "ul", ...(0, a.a)(), ...e.components}] *)
Definition component_table (e : props) : Hook fn mapping :=
  inherited ← M11151.c call VUndefined;
  mret (spread (spread defaults inherited) (components e)).

(** [function u(e) { const t = {...}; return (0, s.jsxs)(s.Fragment, {...}) }];
    a member [t.x] that is missing reads as [undefined], here [None]. *)
Definition u (e : props) : Hook fn (element (option renderer)) :=
  t ← component_table e;
  mret (emap (λ x, t !! x) page_body).

(** What [d] returns: the page body itself, or an element of the [wrapper]
    component with the properties [e] and, as its only child, an element of
    type [u] with the properties [e]. *)
Inductive content : Type :=
| Wrapped (wrapper : renderer) (e child : props)
| Plain (tree : element (option renderer)).

(** [function d(e = {}) {
      const {wrapper: t} = {...(0, a.a)(), ...e.components};
      return t ? (0, s.jsx)(t, {...e, children: (0, s.jsx)(u, {...e})}) : u(e) }] *)
Definition d (arg : option props) : Hook fn content :=
  let e := default {| components := VUndefined |} arg in
  inherited ← M11151.c call VUndefined;
  match spread (spread ∅ inherited) (components e) !! "wrapper" with
  | Some t =>
      if renderer_truthy t then mret (Wrapped t e e)
      else tree ← u e; mret (Plain tree)
  | None => tree ← u e; mret (Plain tree)
  end.

End Page.

End M16956.

(** ** The chunk over a store of objects *)

Module Store.

Abbreviation loc := positive.

(** JavaScript values with object identity: an object or array is a reference
    to a cell of the store. *)
Inductive jsval (fn : Type) : Type :=
| JUndefined
| JNull
| JBool (b : bool)
| JNumber (n : Z)
| JString (s : string)
| JRef (l : loc)
| JFunction (f : fn).

Arguments JUndefined {fn}.
Arguments JNull {fn}.
Arguments JBool {fn} b.
Arguments JNumber {fn} n.
Arguments JString {fn} s.
Arguments JRef {fn} l.
Arguments JFunction {fn} f.

(** A cell: the own enumerable properties of an object, or the items of an
    array. *)
Inductive cell (fn : Type) : Type :=
| Object (props : gmap string (jsval fn))
| Array (items : list (jsval fn)).

Arguments Object {fn} props.
Arguments Array {fn} items.

Abbreviation heap fn := (gmap loc (cell fn)).

(** Code that runs against the store. *)
Definition Run (fn A : Type) : Type := heap fn → A * heap fn.

#[global] Instance run_ret {fn} : MRet (Run fn) := λ A x h, (x, h).
#[global] Instance run_bind {fn} : MBind (Run fn) :=
  λ A B k m h, k (m h).1 (m h).2.

Section Primitives.
Context {fn : Type}.

(** A new object or array: a cell at a location the store does not use. *)
Definition alloc (c : cell fn) : Run fn loc :=
  λ h, let l := fresh (dom h) in (l, <[l:=c]> h).

Definition read (l : loc) : Run fn (option (cell fn)) :=
  λ h, (h !! l, h).

(** The items of an array or the characters of a string under their indices. *)
Definition indexed (xs : list (jsval fn)) : gmap string (jsval fn) :=
  list_to_map (imap (λ i x, (pretty i, x)) xs).

Definition characters (s : string) : list (jsval fn) :=
  (λ ch, JString (String ch EmptyString)) <$> String.list_ascii_of_string s.

Definition cell_props (c : option (cell fn)) : gmap string (jsval fn) :=
  match c with
  | Some (Object props) => props
  | Some (Array items) => indexed items
  | None => ∅
  end.

(** The own enumerable properties a spread [...v] copies. *)
Definition enumerable (v : jsval fn) : Run fn (gmap string (jsval fn)) :=
  match v with
  | JRef l => c ← read l; mret (cell_props c)
  | JString s => mret (indexed (characters s))
  | _ => mret ∅
  end.

(** [e.k] for an object [e]: [undefined] when the property is missing. *)
Definition get (e : loc) (k : string) : Run fn (jsval fn) :=
  c ← read e; mret (default JUndefined (cell_props c !! k)).

Definition truthy (v : jsval fn) : bool :=
  match v with
  | JUndefined | JNull => false
  | JBool b => b
  | JNumber n => negb (Z.eqb n 0)
  | JString s => negb (String.eqb s EmptyString)
  | JRef _ | JFunction _ => true
  end.

End Primitives.

(** The locations of the objects the two modules create when they are
    evaluated: [a] of module 11151; [r], [o] with the array and the three
    objects nested in it, [l] and [i] of module 16956. *)
Record scope : Type :=
  { a_loc : loc;
    r_loc : loc;
    o_loc : loc;
    o_tags : loc;
    o_frontMatter : loc;
    o_previous : loc;
    o_next : loc;
    l_loc : loc;
    i_loc : loc }.

Definition metadata_cells (sc : scope) : gset loc :=
  {[ o_loc sc; o_tags sc; o_frontMatter sc; o_previous sc; o_next sc ]}.

Record provider_element (fn : Type) : Type :=
  { provider_value : jsval fn; provider_children : jsval fn }.
Arguments provider_value {fn} _.
Arguments provider_children {fn} _.

(** What [d] returns: the page body, or an element of the [wrapper]
    component with the properties [props] and, as its only child, an element
    of type [u] with the properties [child].  Elements and the property
    objects written inside a [jsx] call are values of the rendering
    framework. *)
Inductive content (fn : Type) : Type :=
| Wrapped (wrapper : jsval fn) (props child : gmap string (jsval fn))
| Plain (tree : element (jsval fn)).
Arguments Wrapped {fn} wrapper props child.
Arguments Plain {fn} tree.

(** A call of one of the four functions of the chunk, and what it returns. *)
Inductive invocation (fn : Type) : Type :=
| Call_c (e : jsval fn)
| Call_o (e : loc)
| Call_u (e : loc)
| Call_d (arg : option loc).
Arguments Call_c {fn} e.
Arguments Call_o {fn} e.
Arguments Call_u {fn} e.
Arguments Call_d {fn} arg.

Inductive outcome (fn : Type) : Type :=
| Returned_value (v : jsval fn)
| Returned_provider (p : provider_element fn)
| Returned_tree (t : element (jsval fn))
| Returned_content (x : content fn).
Arguments Returned_value {fn} v.
Arguments Returned_provider {fn} p.
Arguments Returned_tree {fn} t.
Arguments Returned_content {fn} x.

Section Bodies.
Context {fn : Type}.
(** Application of a function of the caller: code from outside the chunk,
    which may read and write the store. *)
Variable call : fn → jsval fn → Run fn (jsval fn).

Definition link_object (x : M16956.nav_link) : cell fn :=
  Object (list_to_map
    [ ("title", JString (M16956.link_title x));
      ("permalink", JString (M16956.link_permalink x)) ]).

Definition front_matter_object (x : M16956.front_matter) : cell fn :=
  Object (list_to_map
    [ ("sidebar_label", JString (M16956.sidebar_label x));
      ("title", JString (M16956.fm_title x)) ]).

Definition metadata_object (x : M16956.page_metadata)
    (tags frontMatter previous next : loc) : cell fn :=
  Object (list_to_map
    [ ("id", JString (M16956.meta_id x));
      ("title", JString (M16956.title x));
      ("description", JString (M16956.description x));
      ("source", JString (M16956.source x));
      ("sourceDirName", JString (M16956.sourceDirName x));
      ("slug", JString (M16956.slug x));
      ("permalink", JString (M16956.permalink x));
      ("draft", JBool (M16956.draft x));
      ("unlisted", JBool (M16956.unlisted x));
      ("editUrl", JString (M16956.editUrl x));
      ("tags", JRef tags);
      ("version", JString (M16956.version x));
      ("frontMatter", JRef frontMatter);
      ("sidebar", JString (M16956.sidebar x));
      ("previous", JRef previous);
      ("next", JRef next) ]).

Definition toc_object (x : M16956.toc_entry) : cell fn :=
  Object (list_to_map
    [ ("value", JString (M16956.toc_value x));
      ("id", JString (M16956.toc_id x));
      ("level", JNumber (Z.of_nat (M16956.toc_level x))) ]).

(** Evaluation of the two module bodies: module 11151 first, which the page
    module requires, then the constants of the page module in order. *)
Definition load : Run fn scope :=
  a ← alloc (Object ∅);
  r ← alloc (front_matter_object M16956.r);
  tags ← alloc (Array (JString <$> M16956.tags M16956.o));
  frontMatter ← alloc (front_matter_object (M16956.frontMatter M16956.o));
  previous ← alloc (link_object (M16956.previous M16956.o));
  next ← alloc (link_object (M16956.next M16956.o));
  o ← alloc (metadata_object M16956.o tags frontMatter previous next);
  l ← alloc (Object ∅);
  entries ← mapM (λ x, entry ← alloc (toc_object x); mret (JRef entry)) M16956.i;
  i ← alloc (Array entries);
  mret {| a_loc := a; r_loc := r; o_loc := o; o_tags := tags;
          o_frontMatter := frontMatter; o_previous := previous; o_next := next;
          l_loc := l; i_loc := i |}.

(** The properties with which the table [t] of [u] starts. *)
Definition defaults : gmap string (jsval fn) :=
  list_to_map ((λ tag, (tag, JString tag)) <$>
                 ["code"; "h3"; "li"; "p"; "pre"; "strong"; "ul"]).

Variable sc : scope.

(** [function c(e) { const t = s.useContext(r);
      return s.useMemo(function () {
        return "function" == typeof e ? e(t) : {...t, ...e} }, [t, e]) }];
    [ambient] is the value of the nearest provider, [r]'s default being the
    object [a]. *)
Definition c (e : jsval fn) (ambient : option (jsval fn)) : Run fn (jsval fn) :=
  let t := default (JRef (a_loc sc)) ambient in
  match e with
  | JFunction f => call f t
  | _ =>
      from_t ← enumerable t;
      from_e ← enumerable e;
      l ← alloc (Object (from_e ∪ from_t));
      mret (JRef l)
  end.

(** [function o(e) { let t;
      return t = e.disableParentContext
        ? "function" == typeof e.components ? e.components(a) : e.components || a
        : c(e.components),
      s.createElement(r.Provider, {value: t}, e.children) }] *)
Definition o (e : loc) (ambient : option (jsval fn)) : Run fn (provider_element fn) :=
  flag ← get e "disableParentContext";
  t ← (if truthy flag
       then components ← get e "components";
            match components with
            | JFunction f => call f (JRef (a_loc sc))
            | v => mret (if truthy v then v else JRef (a_loc sc))
            end
       else components ← get e "components"; c components ambient);
  children ← get e "children";
  mret {| provider_value := t; provider_children := children |}.

(** [function u(e) {
      const t = {code: "code", ..., ul: "ul", ...(0, a.a)(), ...e.components};
      return (0, s.jsxs)(s.Fragment, {...}) }]; the table [t] is a new object
    of the store, the elements and the property objects written inside the
    [jsx] calls are values of the rendering framework. *)
Definition u (e : loc) (ambient : option (jsval fn)) : Run fn (element (jsval fn)) :=
  inherited ← c JUndefined ambient;
  from_inherited ← enumerable inherited;
  components ← get e "components";
  from_components ← enumerable components;
  t ← alloc (Object (from_components ∪ (from_inherited ∪ defaults)));
  table ← read t;
  mret (emap (λ x, default JUndefined (cell_props table !! x)) M16956.page_body).

(** [function d(e = {}) {
      const {wrapper: t} = {...(0, a.a)(), ...e.components};
      return t ? (0, s.jsx)(t, {...e, children: (0, s.jsx)(u, {...e})}) : u(e) }] *)
Definition d (arg : option loc) (ambient : option (jsval fn)) : Run fn (content fn) :=
  e ← match arg with
      | Some e => mret e
      | None => alloc (Object ∅)
      end;
  inherited ← c JUndefined ambient;
  from_inherited ← enumerable inherited;
  components ← get e "components";
  from_components ← enumerable components;
  table ← alloc (Object (from_components ∪ from_inherited));
  wrapper ← get table "wrapper";
  if truthy wrapper
  then props ← enumerable (JRef e);
       child ← enumerable (JRef e);
       mret (Wrapped wrapper props child)
  else tree ← u e ambient; mret (Plain tree).

Definition invoke (inv : invocation fn) (ambient : option (jsval fn))
  : Run fn (outcome fn) :=
  match inv with
  | Call_c e => v ← c e ambient; mret (Returned_value v)
  | Call_o e => p ← o e ambient; mret (Returned_provider p)
  | Call_u e => t ← u e ambient; mret (Returned_tree t)
  | Call_d arg => x ← d arg ambient; mret (Returned_content x)
  end.

(** A sequence of invocations, each under its own nearest provider value. *)
Definition run (invs : list (invocation fn * option (jsval fn)))
  : Run fn (list (outcome fn)) :=
  mapM (λ step, invoke step.1 step.2) invs.

End Bodies.

(** [v.k] read in the store [h]. *)
Definition field {fn} (h : heap fn) (v : jsval fn) (k : string) : jsval fn :=
  match v with
  | JRef l => (get l k h).1
  | _ => JUndefined
  end.

(** Every cell of [L] that the store [h] holds is the same in [h']. *)
Definition preserved {fn} (L : gset loc) (h h' : heap fn) : Prop :=
  ∀ l, l ∈ L → is_Some (h !! l) → h' !! l = h !! l.

(** The code [m] leaves the cells of [L] as it finds them, from every store. *)
Definition frames {fn A} (L : gset loc) (m : Run fn A) : Prop :=
  ∀ h, preserved L h (m h).2.

(** Two shapes of caller function for concrete runs: one returns its
    argument, one returns a new object with the given string entries. *)
Inductive closure : Type :=
| Returns_argument
| Returns_new (entries : list (string * string)).

Definition apply (f : closure) (v : jsval closure) : Run closure (jsval closure) :=
  match f with
  | Returns_argument => mret v
  | Returns_new entries =>
      l ← alloc (Object (list_to_map (prod_map id JString <$> entries)));
      mret (JRef l)
  end.

End Store.

(** ** Sample closures, for concrete evaluations *)

Module Samples.

(** Two shapes of override function: one that ignores the context it is
    given and returns a fixed table, and one that extends that context. *)
Inductive closure : Type :=
| Const (m : mapping)
| Extend (m : mapping).

Definition apply (f : closure) (arg : value closure) : value closure :=
  match f with
  | Const m => VMapping m
  | Extend m => VMapping (spread (spread ∅ arg) (VMapping m : value closure))
  end.

Definition DefaultP : renderer := Component "DefaultP".
Definition CustomCode : renderer := Component "CustomCode".

Definition base : mapping := {[ "p" := DefaultP ]}.
Definition override : mapping := {[ "code" := CustomCode ]}.

End Samples.

(** ** The merge as the specification words it *)

(** [B] with each key of [O] overwritten by [O]'s value. *)
Definition overwrite (B O : mapping) : mapping :=
  map_fold (λ k v acc, <[k:=v]> acc) B O.

(** ** Headings of a page body *)

(** The nesting level of a heading tag, [None] for every other tag. *)
Definition heading_level (type : string) : option nat :=
  if String.eqb type "h1" then Some 1
  else if String.eqb type "h2" then Some 2
  else if String.eqb type "h3" then Some 3
  else if String.eqb type "h4" then Some 4
  else if String.eqb type "h5" then Some 5
  else if String.eqb type "h6" then Some 6
  else None.

(** The value of the property [k] in the properties of an element. *)
Fixpoint prop_value (k : string) (props : list (string * string)) : option string :=
  match props with
  | [] => None
  | (k', v) :: rest => if String.eqb k k' then Some v else prop_value k rest
  end.

(** The text below an element. *)
Fixpoint text_content {T} (x : element T) : string :=
  match x with
  | Text s => s
  | Jsx _ _ children | Fragment children =>
      foldr (λ child rest, text_content child +:+ rest) EmptyString children
  end.

(** The heading elements of a body, in document order, each as the table of
    contents records one: its text, its [id] property and its level. *)
Fixpoint headings (x : element string) : list M16956.toc_entry :=
  match x with
  | Text _ => []
  | Jsx type props children =>
      match heading_level type with
      | Some n =>
          [ {| M16956.toc_value := text_content x;
               M16956.toc_id := default EmptyString (prop_value "id" props);
               M16956.toc_level := n |} ]
      | None => []
      end ++ flat_map headings children
  | Fragment children => flat_map headings children
  end.

(** The tag names for which the page body carries defaults. *)
Definition local_tags : list string :=
  ["h3"; "code"; "li"; "p"; "pre"; "strong"; "ul"].

(** ** The binding of a tag as the specification words it *)

(** The renderer a table supplies under a key: an entry that is [undefined]
    or [null] supplies none. *)
Definition supplied_renderer (m : mapping) (k : string) : option renderer :=
  match m !! k with
  | Some EntryUndefined | Some EntryNull | None => None
  | Some x => Some x
  end.

(** The caller-provided override when one is supplied, through the
    [components] property first and the inherited context second, and the
    default otherwise. *)
Definition specified_binding (O B : mapping) (k : string) : renderer :=
  match supplied_renderer O k with
  | Some x => x
  | None => match supplied_renderer B k with
            | Some x => x
            | None => Intrinsic k
            end
  end.

(** The test ["function" == typeof v] of the hook and the provider. *)
Definition typeof_function {fn} (v : value fn) : bool :=
  match v with
  | VFunction _ => true
  | _ => false
  end.

(** ** Lemmas on spreads and the hook *)

Lemma spread_lookup {fn} (target : mapping) (src : value fn) (k : string) :
  spread target src !! k =
  match own_props src !! k with
  | Some x => Some x
  | None => target !! k
  end.
Proof.
  unfold spread. rewrite lookup_union.
  destruct (own_props src !! k), (target !! k); reflexivity.
Qed.

Lemma spread_empty_mapping {fn} (m : mapping) :
  spread (fn := fn) ∅ (VMapping m) = m.
Proof. unfold spread; simpl. apply (right_id_L ∅ (∪)). Qed.

Lemma overwrite_union (B O : mapping) : overwrite B O = O ∪ B.
Proof.
  unfold overwrite.
  induction O as [|k v O Hk Hfold IH] using map_first_key_ind.
  - rewrite map_fold_empty. symmetry. apply (left_id_L ∅ (∪)).
  - rewrite map_fold_insert_first_key by assumption.
    rewrite IH. apply insert_union_l.
Qed.

Lemma overwrite_lookup (B O : mapping) (k : string) :
  overwrite B O !! k =
  match O !! k with
  | Some x => Some x
  | None => B !! k
  end.
Proof.
  rewrite overwrite_union, lookup_union.
  destruct (O !! k), (B !! k); reflexivity.
Qed.

Section HookLemmas.
Context {fn : Type}.
Variable call : fn → value fn → value fn.

Lemma c_unfold (e : value fn) (ambient : option (value fn)) :
  M11151.c call e ambient =
  match e with
  | VFunction f => call f (default M11151.a ambient)
  | _ => VMapping (spread (spread ∅ (default M11151.a ambient)) e)
  end.
Proof. destruct e; reflexivity. Qed.

Lemma c_mapping (B O : mapping) :
  M11151.c call (VMapping O) (Some (VMapping B)) = VMapping (O ∪ B).
Proof. rewrite c_unfold. simpl. by rewrite spread_empty_mapping. Qed.

Lemma c_undefined (B : mapping) :
  M11151.c call VUndefined (Some (VMapping B)) = VMapping B.
Proof.
  rewrite c_unfold. simpl. rewrite spread_empty_mapping.
  unfold spread; simpl. by rewrite (left_id_L ∅ (∪)).
Qed.

End HookLemmas.

(** ** The context-merge hook *)

(** C1. With inherited context [B] and a plain mapping [O] as override, the
    hook returns [B] with each key of [O] overwritten by [O]'s value: under a
    key of [O] the result holds [O]'s value (so [O] takes precedence), and
    under every other key what [B] holds there. *)
Theorem merge_mapping_override {fn} (call : fn → value fn → value fn)
    (B O : mapping) :
  M11151.c call (VMapping O) (Some (VMapping B)) = VMapping (overwrite B O) ∧
  ∀ k : string,
    overwrite B O !! k = match O !! k with
                         | Some x => Some x
                         | None => B !! k
                         end.
Proof.
  split.
  - rewrite c_mapping. by rewrite overwrite_union.
  - apply overwrite_lookup.
Qed.

(** The end-to-end example of the merge: base [{p: DefaultP}], override
    [{code: CustomCode}]. *)
Example merge_example :
  M11151.c Samples.apply (VMapping Samples.override) (Some (VMapping Samples.base))
  = VMapping {[ "p" := Samples.DefaultP; "code" := Samples.CustomCode ]}.
Proof.
  rewrite c_mapping. vm_compute. reflexivity.
Qed.

(** C2, as stated, fails: with base [{p: DefaultP}] and an override function
    that returns [{code: CustomCode}], the hook returns [{code: CustomCode}],
    which is not the base overwritten by that mapping (the key [p] is gone). *)
Lemma merge_function_not_overwrite :
  Samples.apply (Samples.Const Samples.override) (VMapping Samples.base)
    = VMapping Samples.override ∧
  M11151.c Samples.apply (VFunction (Samples.Const Samples.override))
      (Some (VMapping Samples.base))
    ≠ VMapping (overwrite Samples.base Samples.override).
Proof.
  split; [reflexivity|].
  rewrite c_unfold. cbn [Samples.apply default]. intros Heq.
  apply (f_equal (λ v, own_props v !! "p")) in Heq.
  cbn beta iota delta [own_props] in Heq.
  rewrite overwrite_lookup in Heq.
  vm_compute in Heq. discriminate Heq.
Qed.

(** C2, amended. With inherited context [B] and a function [f] as override,
    the hook returns [f(B)] itself; nothing of [B] is merged into it. *)
Theorem merge_function_override {fn} (call : fn → value fn → value fn)
    (B : mapping) (f : fn) :
  M11151.c call (VFunction f) (Some (VMapping B)) = call f (VMapping B).
Proof. reflexivity. Qed.

(** C5. With no override supplied, the hook returns a mapping equal to the
    inherited context [B]. *)
Theorem merge_undefined_identity {fn} (call : fn → value fn → value fn)
    (B : mapping) :
  M11151.c call VUndefined (Some (VMapping B)) = VMapping B.
Proof. apply c_undefined. Qed.

(** C6. Merging the same mapping [O] into the result of merging [O] into [B]
    gives that result again. *)
Theorem merge_idempotent {fn} (call : fn → value fn → value fn)
    (B O : mapping) :
  M11151.c call (VMapping O)
    (Some (M11151.c call (VMapping O) (Some (VMapping B))))
  = M11151.c call (VMapping O) (Some (VMapping B)).
Proof.
  rewrite !c_mapping. f_equal.
  rewrite (assoc_L (∪)). by rewrite (idemp_L (∪)).
Qed.

(** ** The provider with the parent context disabled *)

(** C3. With a truthy [disableParentContext] and a plain mapping [O] as
    [components], the value the provider installs for its descendants is [O],
    whatever the enclosing context is. *)
Theorem provider_disabled_mapping {fn node} (call : fn → value fn → value fn)
    (flag : value fn) (O : mapping) (ch : node) (ambient : option (value fn)) :
  truthy flag = true →
  provider_value
    (M11151.o call
       {| M11151.disableParentContext := flag;
          M11151.components := VMapping O;
          M11151.children := ch |} ambient)
  = VMapping O.
Proof.
  intros Hflag. unfold M11151.o, mbind, hook_bind, mret, hook_ret.
  cbn [M11151.disableParentContext M11151.components M11151.children provider_value].
  rewrite Hflag. reflexivity.
Qed.

(** The example of the specification with the opt-out set: base
    [{p: DefaultP}], override [{code: CustomCode}]. *)
Lemma provider_disabled_mapping_witness :
  truthy (VBool true : value Samples.closure) = true ∧
  provider_value
    (M11151.o Samples.apply
       {| M11151.disableParentContext := VBool true;
          M11151.components := VMapping Samples.override;
          M11151.children := tt |} (Some (VMapping Samples.base)))
  = VMapping Samples.override.
Proof.
  split; [reflexivity|].
  apply (provider_disabled_mapping Samples.apply (VBool true) Samples.override tt
           (Some (VMapping Samples.base))).
  reflexivity.
Defined.

(** C4. With a truthy [disableParentContext] and a function [f] as
    [components], the value the provider installs is [f] applied to the empty
    mapping, whatever the enclosing context is. *)
Theorem provider_disabled_function {fn node} (call : fn → value fn → value fn)
    (flag : value fn) (f : fn) (ch : node) (ambient : option (value fn)) :
  truthy flag = true →
  provider_value
    (M11151.o call
       {| M11151.disableParentContext := flag;
          M11151.components := VFunction f;
          M11151.children := ch |} ambient)
  = call f (VMapping ∅).
Proof.
  intros Hflag. unfold M11151.o, mbind, hook_bind, mret, hook_ret.
  cbn [M11151.disableParentContext M11151.components M11151.children provider_value].
  rewrite Hflag. reflexivity.
Qed.

Lemma provider_disabled_function_witness :
  truthy (VBool true : value Samples.closure) = true ∧
  provider_value
    (M11151.o Samples.apply
       {| M11151.disableParentContext := VBool true;
          M11151.components := VFunction (Samples.Extend Samples.override);
          M11151.children := tt |} (Some (VMapping Samples.base)))
  = Samples.apply (Samples.Extend Samples.override) (VMapping ∅).
Proof.
  split; [reflexivity|].
  apply (provider_disabled_function Samples.apply (VBool true)
           (Samples.Extend Samples.override) tt (Some (VMapping Samples.base))).
  reflexivity.
Defined.

(** C9. With a truthy [disableParentContext] and [components] undefined, the
    value the provider installs is the module-scoped default [a], the empty
    mapping, and not [undefined]. *)
Theorem provider_disabled_undefined {fn node} (call : fn → value fn → value fn)
    (flag : value fn) (ch : node) (ambient : option (value fn)) :
  truthy flag = true →
  provider_value
    (M11151.o call
       {| M11151.disableParentContext := flag;
          M11151.components := VUndefined;
          M11151.children := ch |} ambient)
  = M11151.a ∧
  M11151.a = VMapping (fn := fn) ∅ ∧
  M11151.a ≠ VUndefined (fn := fn).
Proof.
  intros Hflag. split; [|split; [reflexivity|discriminate]].
  unfold M11151.o, mbind, hook_bind, mret, hook_ret.
  cbn [M11151.disableParentContext M11151.components M11151.children provider_value].
  rewrite Hflag. reflexivity.
Qed.

Lemma provider_disabled_undefined_witness :
  truthy (VBool true : value Samples.closure) = true ∧
  provider_value
    (M11151.o Samples.apply
       {| M11151.disableParentContext := VBool true;
          M11151.components := VUndefined;
          M11151.children := tt |} (Some (VMapping Samples.base)))
  = M11151.a.
Proof.
  split; [reflexivity|].
  apply (provider_disabled_undefined Samples.apply (VBool true) tt
           (Some (VMapping Samples.base))).
  reflexivity.
Defined.

(** ** The page *)

(** Induction on element trees, with the hypothesis for every child. *)
Lemma element_ind {T} (P : element T → Prop) :
  (∀ s, P (Text s)) →
  (∀ type props children, Forall P children → P (Jsx type props children)) →
  (∀ children, Forall P children → P (Fragment children)) →
  ∀ x, P x.
Proof.
  intros HText HJsx HFragment.
  fix IH 1. intros [s|type props children|children].
  - apply HText.
  - apply HJsx. induction children as [|child rest IHrest]; constructor; auto.
  - apply HFragment. induction children as [|child rest IHrest]; constructor; auto.
Qed.

Lemma flat_map_types_used_emap {T U} (f : T → U) (children : list (element T)) :
  Forall (λ x, types_used (emap f x) = List.map f (types_used x)) children →
  flat_map types_used (List.map (emap f) children)
  = List.map f (flat_map types_used children).
Proof.
  induction 1 as [|child rest Hchild _ IH]; [reflexivity|].
  cbn [List.map flat_map]. rewrite Hchild, IH. by rewrite List.map_app.
Qed.

(** Consulting the table changes the element types and nothing else. *)
Lemma types_used_emap {T U} (f : T → U) (x : element T) :
  types_used (emap f x) = List.map f (types_used x).
Proof.
  induction x as [s|type props children IH|children IH] using element_ind.
  - reflexivity.
  - cbn [emap types_used List.map]. f_equal. by apply flat_map_types_used_emap.
  - cbn [emap types_used]. by apply flat_map_types_used_emap.
Qed.

Lemma defaults_lookup :
  Forall (λ k, M16956.defaults !! k = Some (Intrinsic k)) local_tags.
Proof. repeat constructor. Qed.

Lemma component_table_lookup {fn} (call : fn → value fn → value fn)
    (e : M16956.props) (ambient : option (value fn)) (k : string) :
  M16956.component_table call e ambient !! k =
  match own_props (M16956.components e) !! k with
  | Some x => Some x
  | None => match own_props (default M11151.a ambient) !! k with
            | Some x => Some x
            | None => M16956.defaults !! k
            end
  end.
Proof.
  unfold M16956.component_table, mbind, hook_bind, mret, hook_ret.
  rewrite c_unfold. cbn iota.
  rewrite !spread_lookup. cbn [own_props]. rewrite !spread_lookup.
  cbn [own_props]. rewrite !lookup_empty.
  destruct (own_props (M16956.components e) !! k); [reflexivity|].
  destruct (own_props (default M11151.a ambient) !! k); reflexivity.
Qed.

(** C7, as stated, fails: a [components] property that holds [undefined]
    under [h3] supplies no renderer, so the binding the claim describes is the
    default ["h3"]; the page binds [undefined], which it copies over the
    default, and renders an element of that type. *)
Lemma page_binding_undefined_entry :
  specified_binding {[ "h3" := EntryUndefined ]} ∅ "h3" = Intrinsic "h3" ∧
  M16956.component_table Samples.apply
    {| M16956.components := VMapping {[ "h3" := EntryUndefined ]} |}
    (Some (VMapping ∅)) !! "h3"
  = Some EntryUndefined ∧
  M16956.component_table Samples.apply
    {| M16956.components := VMapping {[ "h3" := EntryUndefined ]} |}
    (Some (VMapping ∅)) !! "h3"
  ≠ Some (specified_binding {[ "h3" := EntryUndefined ]} ∅ "h3") ∧
  List.hd_error
    (types_used
       (M16956.u Samples.apply
          {| M16956.components := VMapping {[ "h3" := EntryUndefined ]} |}
          (Some (VMapping ∅))))
  = Some (Some EntryUndefined).
Proof.
  split; [by vm_compute|]. split; [by vm_compute|]. split; [|by vm_compute].
  intros Heq. vm_compute in Heq. discriminate Heq.
Qed.

(** C7, amended. The table [t] of the page starts from defaults for exactly
    the tags [h3], [code], [li], [p], [pre], [strong] and [ul], which are also
    exactly the members of [t] the body reads, and the rendered tree takes its
    element types from [t].  Under each of these tags, [t] holds the entry of
    the [components] mapping [O] when [O] has the key, else the entry of the
    inherited context [B] when [B] has the key, else the tag itself; an entry
    that is [undefined] or [null] counts as present.  With no [components]
    only [B] and the defaults count, with no provider only [O] and the
    defaults, with neither the defaults alone; and where the entries of [O]
    and [B] under a tag are renderers, the binding is the one the
    specification words. *)
Theorem page_component_binding {fn} (call : fn → value fn → value fn)
    (O B : mapping) :
  dom M16956.defaults =@{gset string} list_to_set local_tags ∧
  list_to_set (types_used M16956.page_body) =@{gset string} list_to_set local_tags ∧
  types_used
    (M16956.u call {| M16956.components := VMapping O |} (Some (VMapping B)))
  = List.map
      (λ k, M16956.component_table call {| M16956.components := VMapping O |}
              (Some (VMapping B)) !! k)
      (types_used M16956.page_body) ∧
  Forall (λ k,
      M16956.component_table call {| M16956.components := VMapping O |}
        (Some (VMapping B)) !! k
      = Some match O !! k with
             | Some x => x
             | None => match B !! k with
                       | Some x => x
                       | None => Intrinsic k
                       end
             end) local_tags ∧
  Forall (λ k,
      M16956.component_table call {| M16956.components := VUndefined |}
        (Some (VMapping B)) !! k
      = Some match B !! k with
             | Some x => x
             | None => Intrinsic k
             end) local_tags ∧
  Forall (λ k,
      M16956.component_table call {| M16956.components := VMapping O |} None !! k
      = Some match O !! k with
             | Some x => x
             | None => Intrinsic k
             end) local_tags ∧
  Forall (λ k,
      M16956.component_table call {| M16956.components := VUndefined |} None !! k
      = Some (Intrinsic k)) local_tags ∧
  Forall (λ k,
      supplied_renderer O k = O !! k →
      supplied_renderer B k = B !! k →
      M16956.component_table call {| M16956.components := VMapping O |}
        (Some (VMapping B)) !! k
      = Some (specified_binding O B k)) local_tags.
Proof.
  split; [by vm_compute|]. split; [by vm_compute|].
  split; [unfold M16956.u, mbind, hook_bind, mret, hook_ret;
          apply types_used_emap|].
  repeat split;
    (eapply Forall_impl; [apply defaults_lookup|]);
    intros k Hk; cbn beta in *;
    rewrite component_table_lookup, Hk;
    cbn [own_props default from_option id M16956.components M11151.a];
    rewrite ?lookup_empty.
  - destruct (O !! k); [reflexivity|]. destruct (B !! k); reflexivity.
  - destruct (B !! k); reflexivity.
  - destruct (O !! k); reflexivity.
  - reflexivity.
  - intros HO HB. unfold specified_binding. rewrite HO, HB.
    destruct (O !! k); [reflexivity|]. destruct (B !! k); reflexivity.
Qed.

(** Caller-supplied entries win over inherited ones, which win over the
    defaults: an inherited [p], a supplied [code], and both for [h3]. *)
Example page_component_binding_example :
  let inherited : mapping :=
    {[ "p" := Samples.DefaultP; "h3" := Component "InheritedH3" ]} in
  let supplied : mapping :=
    {[ "code" := Samples.CustomCode; "h3" := Component "SuppliedH3" ]} in
  let t := M16956.component_table Samples.apply
             {| M16956.components := VMapping supplied |}
             (Some (VMapping inherited)) in
  List.map (λ k, t !! k) local_tags =
  [ Some (Component "SuppliedH3"); Some Samples.CustomCode;
    Some (Intrinsic "li"); Some Samples.DefaultP; Some (Intrinsic "pre");
    Some (Intrinsic "strong"); Some (Intrinsic "ul") ].
Proof. by vm_compute. Qed.

(** *** The store *)

Section Frames.
Context {fn : Type}.
(** The cells of interest. *)
Variable L : gset Store.loc.
Abbreviation preserved := (Store.preserved (fn := fn) L).
Abbreviation frames := (Store.frames (fn := fn) L).

Lemma preserved_refl h : preserved h h.
Proof. by intros l _ _. Qed.

Lemma preserved_trans h1 h2 h3 :
  preserved h1 h2 → preserved h2 h3 → preserved h1 h3.
Proof.
  intros H12 H23 l Hl Hsome.
  rewrite <- (H12 l Hl Hsome). apply H23; [done|].
  by rewrite (H12 l Hl Hsome).
Qed.

Lemma frames_ret {A} (x : A) : frames (mret x).
Proof. intros h. apply preserved_refl. Qed.

Lemma frames_bind {A B} (m : Store.Run fn A) (k : A → Store.Run fn B) :
  frames m → (∀ x, frames (k x)) → frames (m ≫= k).
Proof.
  intros Hm Hk h. unfold mbind, Store.run_bind.
  eapply preserved_trans; [apply Hm|apply Hk].
Qed.

Lemma frames_alloc (c : Store.cell fn) : frames (Store.alloc c).
Proof.
  intros h l _ Hsome. unfold Store.alloc. cbn [snd].
  apply lookup_insert_ne. intros Heq.
  apply elem_of_dom in Hsome. rewrite <- Heq in Hsome.
  by apply is_fresh in Hsome.
Qed.

Lemma frames_read (l : Store.loc) : frames (Store.read (fn := fn) l).
Proof. intros h. apply preserved_refl. Qed.

Lemma frames_enumerable (v : Store.jsval fn) : frames (Store.enumerable v).
Proof.
  destruct v; try apply frames_ret.
  apply frames_bind; [apply frames_read|intros c; apply frames_ret].
Qed.

Lemma frames_get (e : Store.loc) (k : string) : frames (Store.get (fn := fn) e k).
Proof. apply frames_bind; [apply frames_read|intros c; apply frames_ret]. Qed.

Lemma frames_mapM {A B} (f : A → Store.Run fn B) (xs : list A) :
  (∀ x, frames (f x)) → frames (mapM f xs).
Proof.
  intros Hf. induction xs as [|x xs IH]; [apply frames_ret|].
  cbn [mapM]. apply frames_bind; [apply Hf|intros y].
  apply frames_bind; [apply IH|intros ys; apply frames_ret].
Qed.

Variable call : fn → Store.jsval fn → Store.Run fn (Store.jsval fn).
Hypothesis call_frames : ∀ f v, frames (call f v).
Variable sc : Store.scope.

Lemma frames_c e ambient : frames (Store.c call sc e ambient).
Proof.
  unfold Store.c. destruct e; try apply call_frames;
    (apply frames_bind; [apply frames_enumerable|intros from_t];
     apply frames_bind; [apply frames_enumerable|intros from_e];
     apply frames_bind; [apply frames_alloc|intros fresh_l; apply frames_ret]).
Qed.

Lemma frames_o e ambient : frames (Store.o call sc e ambient).
Proof.
  unfold Store.o.
  apply frames_bind; [apply frames_get|intros flag].
  apply frames_bind; [|intros t; apply frames_bind;
                        [apply frames_get|intros ch; apply frames_ret]].
  destruct (Store.truthy flag);
    (apply frames_bind; [apply frames_get|intros components]).
  - destruct components; try apply frames_ret. apply call_frames.
  - apply frames_c.
Qed.

Lemma frames_u e ambient : frames (Store.u call sc e ambient).
Proof.
  unfold Store.u.
  apply frames_bind; [apply frames_c|intros inherited].
  apply frames_bind; [apply frames_enumerable|intros from_inherited].
  apply frames_bind; [apply frames_get|intros components].
  apply frames_bind; [apply frames_enumerable|intros from_components].
  apply frames_bind; [apply frames_alloc|intros t].
  apply frames_bind; [apply frames_read|intros table; apply frames_ret].
Qed.

Lemma frames_d arg ambient : frames (Store.d call sc arg ambient).
Proof.
  unfold Store.d.
  apply frames_bind;
    [destruct arg; [apply frames_ret|apply frames_alloc]|intros e].
  apply frames_bind; [apply frames_c|intros inherited].
  apply frames_bind; [apply frames_enumerable|intros from_inherited].
  apply frames_bind; [apply frames_get|intros components].
  apply frames_bind; [apply frames_enumerable|intros from_components].
  apply frames_bind; [apply frames_alloc|intros table].
  apply frames_bind; [apply frames_get|intros wrapper].
  destruct (Store.truthy wrapper).
  - apply frames_bind; [apply frames_enumerable|intros props].
    apply frames_bind; [apply frames_enumerable|intros child; apply frames_ret].
  - apply frames_bind; [apply frames_u|intros tree; apply frames_ret].
Qed.

Lemma frames_invoke inv ambient : frames (Store.invoke call sc inv ambient).
Proof.
  destruct inv; cbn [Store.invoke];
    (apply frames_bind; [|intros x; apply frames_ret]);
    [apply frames_c|apply frames_o|apply frames_u|apply frames_d].
Qed.

Lemma frames_run invs : frames (Store.run call sc invs).
Proof. apply frames_mapM. intros step. apply frames_invoke. Qed.

End Frames.

Lemma alloc_lookup_new {fn} (c : Store.cell fn) (h : Store.heap fn) :
  (Store.alloc c h).2 !! (Store.alloc c h).1 = Some c.
Proof. apply lookup_insert_eq. Qed.

Lemma alloc_lookup_old {fn} (c c' : Store.cell fn) (h : Store.heap fn) (l : Store.loc) :
  h !! l = Some c' → (Store.alloc c h).2 !! l = Some c'.
Proof.
  intros Hl. rewrite <- Hl. apply (frames_alloc {[l]} c h l); [set_solver|].
  by rewrite Hl.
Qed.

(** The cells of the metadata record right after the modules are evaluated,
    in whatever store the evaluation starts. *)
Lemma load_cells {fn} (h : Store.heap fn) :
  (Store.load h).2 !! Store.o_loc (Store.load h).1
    = Some (Store.metadata_object M16956.o
              (Store.o_tags (Store.load h).1)
              (Store.o_frontMatter (Store.load h).1)
              (Store.o_previous (Store.load h).1)
              (Store.o_next (Store.load h).1)) ∧
  (Store.load h).2 !! Store.o_tags (Store.load h).1 = Some (Store.Array []) ∧
  (Store.load h).2 !! Store.o_frontMatter (Store.load h).1
    = Some (Store.front_matter_object (M16956.frontMatter M16956.o)) ∧
  (Store.load h).2 !! Store.o_previous (Store.load h).1
    = Some (Store.link_object (M16956.previous M16956.o)) ∧
  (Store.load h).2 !! Store.o_next (Store.load h).1
    = Some (Store.link_object (M16956.next M16956.o)).
Proof.
  unfold Store.load, M16956.i.
  unfold mbind, Store.run_bind, mret, Store.run_ret.
  cbn [mapM fst snd Store.o_loc Store.o_tags Store.o_frontMatter
       Store.o_previous Store.o_next].
  unfold mbind, Store.run_bind, mret, Store.run_ret.
  cbn [fst snd].
  repeat split;
    repeat first [apply alloc_lookup_new | apply alloc_lookup_old].
Qed.

Lemma metadata_cells_elem (sc : Store.scope) :
  Store.o_loc sc ∈ Store.metadata_cells sc ∧
  Store.o_previous sc ∈ Store.metadata_cells sc ∧
  Store.o_next sc ∈ Store.metadata_cells sc.
Proof. unfold Store.metadata_cells. set_solver. Qed.

Lemma field_lookup {fn} (h : Store.heap fn) (l : Store.loc)
    (props : gmap string (Store.jsval fn)) (k : string) :
  h !! l = Some (Store.Object props) →
  Store.field h (Store.JRef l) k = default Store.JUndefined (props !! k).
Proof.
  intros Hl. unfold Store.field, Store.get, Store.read, mbind, Store.run_bind,
    mret, Store.run_ret. cbn [fst snd]. by rewrite Hl.
Qed.

(** Reading the record in a store that holds its cells. *)
Lemma metadata_fields {fn} (h : Store.heap fn) (sc : Store.scope) :
  h !! Store.o_loc sc
    = Some (Store.metadata_object M16956.o (Store.o_tags sc)
              (Store.o_frontMatter sc) (Store.o_previous sc) (Store.o_next sc)) →
  h !! Store.o_previous sc = Some (Store.link_object (M16956.previous M16956.o)) →
  h !! Store.o_next sc = Some (Store.link_object (M16956.next M16956.o)) →
  Store.field h (Store.JRef (Store.o_loc sc)) "slug"
    = Store.JString "/reference/agentchat/utils" ∧
  Store.field h (Store.field h (Store.JRef (Store.o_loc sc)) "previous") "title"
    = Store.JString "user_proxy_agent" ∧
  Store.field h (Store.field h (Store.JRef (Store.o_loc sc)) "previous") "permalink"
    = Store.JString "/autogen/docs/reference/agentchat/user_proxy_agent" ∧
  Store.field h (Store.field h (Store.JRef (Store.o_loc sc)) "next") "title"
    = Store.JString "abstract_cache_base" ∧
  Store.field h (Store.field h (Store.JRef (Store.o_loc sc)) "next") "permalink"
    = Store.JString "/autogen/docs/reference/cache/abstract_cache_base".
Proof.
  intros Ho Hprev Hnext.
  rewrite !(field_lookup h (Store.o_loc sc) _ _ Ho).
  replace (default Store.JUndefined (_ !! "previous"))
    with (Store.JRef (fn := fn) (Store.o_previous sc)) by reflexivity.
  replace (default Store.JUndefined (_ !! "next"))
    with (Store.JRef (fn := fn) (Store.o_next sc)) by reflexivity.
  rewrite !(field_lookup h _ _ _ Hprev), !(field_lookup h _ _ _ Hnext).
  repeat split; reflexivity.
Qed.

(** C8. Evaluate the modules in any store and then call the four functions
    of the chunk any number of times, in any order, with any arguments and
    under any provider values.  Provided the functions of the caller that get
    called leave the cells of the metadata record alone, the record then
    still reads slug [/reference/agentchat/utils], a previous link titled
    [user_proxy_agent] and a next link titled [abstract_cache_base], each
    with its permalink, and every cell of the record is as the evaluation of
    the module made it. *)
Theorem page_metadata_constant {fn}
    (call : fn → Store.jsval fn → Store.Run fn (Store.jsval fn))
    (h : Store.heap fn)
    (invs : list (Store.invocation fn * option (Store.jsval fn))) :
  (∀ f v, Store.frames (Store.metadata_cells (Store.load h).1) (call f v)) →
  let sc := (Store.load h).1 in
  let final := (Store.run call sc invs (Store.load h).2).2 in
  let metadata := Store.JRef (Store.o_loc sc) in
  Store.field final metadata "slug" = Store.JString "/reference/agentchat/utils" ∧
  Store.field final (Store.field final metadata "previous") "title"
    = Store.JString "user_proxy_agent" ∧
  Store.field final (Store.field final metadata "previous") "permalink"
    = Store.JString "/autogen/docs/reference/agentchat/user_proxy_agent" ∧
  Store.field final (Store.field final metadata "next") "title"
    = Store.JString "abstract_cache_base" ∧
  Store.field final (Store.field final metadata "next") "permalink"
    = Store.JString "/autogen/docs/reference/cache/abstract_cache_base" ∧
  ∀ l, l ∈ Store.metadata_cells sc → final !! l = (Store.load h).2 !! l.
Proof.
  intros Hcall sc final metadata.
  destruct (load_cells h) as (Ho & Htags & Hfm & Hprev & Hnext).
  fold sc in Ho, Htags, Hfm, Hprev, Hnext.
  assert (Hkept : ∀ l, l ∈ Store.metadata_cells sc →
                       final !! l = (Store.load h).2 !! l).
  { intros l Hl.
    apply (frames_run (Store.metadata_cells sc) call Hcall sc invs
             (Store.load h).2 l Hl).
    unfold Store.metadata_cells in Hl.
    rewrite !elem_of_union, !elem_of_singleton in Hl.
    destruct Hl as [[[[-> | ->] | ->] | ->] | ->]; eauto. }
  clearbody sc final.
  destruct (metadata_cells_elem sc) as (Hin_o & Hin_prev & Hin_next).
  pose proof (metadata_fields final sc) as Hfields.
  rewrite (Hkept _ Hin_o), (Hkept _ Hin_prev), (Hkept _ Hin_next) in Hfields.
  specialize (Hfields Ho Hprev Hnext).
  destruct Hfields as (H1 & H2 & H3 & H4 & H5).
  unfold metadata. repeat split; assumption.
Qed.

Lemma apply_frames (L : gset Store.loc) (f : Store.closure)
    (v : Store.jsval Store.closure) :
  Store.frames L (Store.apply f v).
Proof.
  destruct f; [apply frames_ret|].
  apply frames_bind; [apply frames_alloc|intros l; apply frames_ret].
Qed.

(** The modules evaluated in the empty store; then the provider called with
    the empty object [l] as its properties, the hook with an override
    function that returns a new table, the page with no argument and the
    page body. *)
Lemma page_metadata_constant_witness :
  (∀ f v,
     Store.frames
       (Store.metadata_cells (Store.load (fn := Store.closure) ∅).1)
       (Store.apply f v)) ∧
  Store.field
    (Store.run Store.apply (Store.load (fn := Store.closure) ∅).1
       [ (Store.Call_o (Store.l_loc (Store.load (fn := Store.closure) ∅).1), None);
         (Store.Call_c (Store.JFunction (Store.Returns_new [("p", "section")])),
          Some (Store.JRef (Store.a_loc (Store.load (fn := Store.closure) ∅).1)));
         (Store.Call_d None, None);
         (Store.Call_u (Store.l_loc (Store.load (fn := Store.closure) ∅).1), None) ]
       (Store.load (fn := Store.closure) ∅).2).2
    (Store.JRef (Store.o_loc (Store.load (fn := Store.closure) ∅).1)) "slug"
  = Store.JString "/reference/agentchat/utils".
Proof.
  assert (Hcall : ∀ f v,
    Store.frames
      (Store.metadata_cells (Store.load (fn := Store.closure) ∅).1)
      (Store.apply f v)) by (intros f v; apply apply_frames).
  split; [exact Hcall|].
  exact (proj1 (page_metadata_constant Store.apply ∅ _ Hcall)).
Defined.

(** C10. The table of contents has exactly one entry, with value and id
    [gather_usage_summary] and level 3; it is the list of headings of the page
    body, whose only [h3] is its first element; rendered with no override
    the tree has one [h3] element; and in every rendering the element of that
    place carries the id [gather_usage_summary] and the text
    [gather_usage_summary]. *)
Theorem toc_matches_heading {fn} (call : fn → value fn → value fn)
    (e : M16956.props) (ambient : option (value fn)) :
  M16956.i = [ {| M16956.toc_value := "gather_usage_summary";
                  M16956.toc_id := "gather_usage_summary";
                  M16956.toc_level := 3 |} ] ∧
  headings M16956.page_body = M16956.i ∧
  List.filter (String.eqb "h3") (types_used M16956.page_body) = ["h3"] ∧
  List.filter (λ type, bool_decide (type = Some (Intrinsic "h3")))
    (types_used (M16956.u call {| M16956.components := VUndefined |} None))
    = [Some (Intrinsic "h3")] ∧
  ∃ rest,
    M16956.u call e ambient =
    Fragment
      (Jsx (M16956.component_table call e ambient !! "h3")
           [("id", "gather_usage_summary")] [Text "gather_usage_summary"]
       :: rest).
Proof.
  split; [reflexivity|]. split; [by vm_compute|]. split; [by vm_compute|].
  split; [by vm_compute|].
  unfold M16956.u, mbind, hook_bind, mret, hook_ret.
  eexists. unfold M16956.page_body. cbn [emap List.map]. reflexivity.
Qed.

(** ** Further properties of the hook and the provider *)

Lemma union_lookup_first (O B : mapping) (k : string) :
  (O ∪ B) !! k = match O !! k with
                 | Some x => Some x
                 | None => B !! k
                 end.
Proof. rewrite lookup_union. destruct (O !! k), (B !! k); reflexivity. Qed.

Lemma c_not_function {fn} (call : fn → value fn → value fn)
    (e : value fn) (ambient : option (value fn)) :
  typeof_function e = false →
  M11151.c call e ambient
  = VMapping (own_props e ∪ own_props (default M11151.a ambient)).
Proof.
  intros He. rewrite c_unfold.
  destruct e; try discriminate He; unfold spread;
    by rewrite (right_id_L ∅ (∪)).
Qed.

Lemma o_value {fn node} (call : fn → value fn → value fn)
    (e : @M11151.props fn node) (ambient : option (value fn)) :
  provider_value (M11151.o call e ambient) =
  if truthy (M11151.disableParentContext e)
  then match M11151.components e with
       | VFunction f => call f M11151.a
       | v => js_or v M11151.a
       end
  else M11151.c call (M11151.components e) ambient.
Proof.
  unfold M11151.o, mbind, hook_bind, mret, hook_ret.
  destruct (truthy (M11151.disableParentContext e)); reflexivity.
Qed.


(** X2. [null] and a boolean as override act like no override: the hook returns
    a mapping equal to the inherited context. *)
Theorem hook_null_or_boolean_identity {fn} (call : fn → value fn → value fn)
    (B : mapping) :
  M11151.c call VNull (Some (VMapping B)) = VMapping B ∧
  ∀ b : bool, M11151.c call (VBool b) (Some (VMapping B)) = VMapping B.
Proof.
  split; [|intros b]; rewrite c_not_function by reflexivity;
    cbn [own_props default]; by rewrite (left_id_L ∅ (∪)).
Qed.

(** X3. With no provider above the caller the hook works on the module's empty
    default: a mapping override comes back as it is, no override gives the
    empty mapping, and an override function is applied to the empty mapping. *)
Theorem hook_without_provider {fn} (call : fn → value fn → value fn)
    (O : mapping) (f : fn) :
  M11151.c call (VMapping O) None = VMapping O ∧
  M11151.c call VUndefined None = VMapping ∅ ∧
  M11151.c call (VFunction f) None = call f (VMapping ∅).
Proof.
  split; [|split; [|reflexivity]]; rewrite c_not_function by reflexivity;
    cbn [own_props default M11151.a]; by rewrite (right_id_L ∅ (∪)).
Qed.

(** X4. The merge never drops a key: the keys of the result are those of the
    override together with those of the inherited context. *)
Theorem merge_keys {fn} (call : fn → value fn → value fn) (B O : mapping) :
  dom (own_props (M11151.c call (VMapping O) (Some (VMapping B))))
  = dom O ∪ dom B.
Proof. rewrite c_mapping. cbn [own_props]. apply dom_union_L. Qed.

(** X5. An override whose entries the inherited context already holds changes
    nothing. *)
Theorem merge_contained_override {fn} (call : fn → value fn → value fn)
    (B O : mapping) :
  O ⊆ B →
  M11151.c call (VMapping O) (Some (VMapping B)) = VMapping B.
Proof. intros Hsub. rewrite c_mapping. f_equal. by apply map_subseteq_union. Qed.

Lemma merge_contained_override_witness :
  Samples.base ⊆ Samples.override ∪ Samples.base ∧
  M11151.c Samples.apply (VMapping Samples.base)
    (Some (VMapping (Samples.override ∪ Samples.base)))
  = VMapping (Samples.override ∪ Samples.base).
Proof.
  assert (Hsub : Samples.base ⊆ Samples.override ∪ Samples.base).
  { apply map_union_subseteq_r. by apply map_disjoint_singleton_l. }
  split; [exact Hsub|].
  exact (merge_contained_override Samples.apply
           (Samples.override ∪ Samples.base) Samples.base Hsub).
Defined.

(** X6. Two overrides with no key in common can be merged in either order. *)
Theorem merge_disjoint_commute {fn} (call : fn → value fn → value fn)
    (B O1 O2 : mapping) :
  O1 ##ₘ O2 →
  M11151.c call (VMapping O2)
    (Some (M11151.c call (VMapping O1) (Some (VMapping B))))
  = M11151.c call (VMapping O1)
      (Some (M11151.c call (VMapping O2) (Some (VMapping B)))).
Proof.
  intros Hdisj. rewrite !c_mapping. f_equal.
  rewrite !(assoc_L (∪)). f_equal. symmetry. by apply map_union_comm.
Qed.

Lemma merge_disjoint_commute_witness :
  Samples.base ##ₘ Samples.override ∧
  M11151.c Samples.apply (VMapping Samples.override)
    (Some (M11151.c Samples.apply (VMapping Samples.base) (Some (VMapping ∅))))
  = M11151.c Samples.apply (VMapping Samples.base)
      (Some (M11151.c Samples.apply (VMapping Samples.override) (Some (VMapping ∅)))).
Proof.
  assert (Hdisj : Samples.base ##ₘ Samples.override).
  { by apply map_disjoint_singleton_l. }
  split; [exact Hdisj|].
  exact (merge_disjoint_commute Samples.apply ∅ Samples.base Samples.override Hdisj).
Defined.

(** X7. With a falsy [disableParentContext] (absent, [null] or [false]) and a
    plain mapping [O] as [components], the provider installs the inherited
    context [B] overlaid with [O]: entries of [O] win, every other key keeps
    what [B] holds. *)
Theorem provider_enabled_mapping {fn node} (call : fn → value fn → value fn)
    (flag : value fn) (B O : mapping) (ch : node) :
  truthy flag = false →
  ∃ R : mapping,
    provider_value
      (M11151.o call
         {| M11151.disableParentContext := flag;
            M11151.components := VMapping O;
            M11151.children := ch |} (Some (VMapping B)))
    = VMapping R ∧
    ∀ k : string, R !! k = match O !! k with
                           | Some x => Some x
                           | None => B !! k
                           end.
Proof.
  intros Hflag. exists (O ∪ B). split; [|apply union_lookup_first].
  rewrite o_value. cbn [M11151.disableParentContext M11151.components].
  rewrite Hflag. apply c_mapping.
Qed.

Lemma provider_enabled_mapping_witness :
  truthy (VUndefined : value Samples.closure) = false ∧
  ∃ R : mapping,
    provider_value
      (M11151.o Samples.apply
         {| M11151.disableParentContext := VUndefined;
            M11151.components := VMapping Samples.override;
            M11151.children := tt |} (Some (VMapping Samples.base)))
    = VMapping R ∧
    ∀ k : string, R !! k = match Samples.override !! k with
                           | Some x => Some x
                           | None => Samples.base !! k
                           end.
Proof.
  split; [reflexivity|].
  apply (provider_enabled_mapping Samples.apply VUndefined Samples.base
           Samples.override tt).
  reflexivity.
Defined.

(** X8. With a falsy [disableParentContext] an override function receives the
    inherited context (the empty default when there is no provider above),
    and what it returns is installed as it is. *)
Theorem provider_enabled_function {fn node} (call : fn → value fn → value fn)
    (flag : value fn) (f : fn) (ch : node) (ambient : option (value fn)) :
  truthy flag = false →
  provider_value
    (M11151.o call
       {| M11151.disableParentContext := flag;
          M11151.components := VFunction f;
          M11151.children := ch |} ambient)
  = call f (default (VMapping ∅) ambient).
Proof.
  intros Hflag. rewrite o_value.
  cbn [M11151.disableParentContext M11151.components]. rewrite Hflag.
  by rewrite c_unfold.
Qed.

Lemma provider_enabled_function_witness :
  truthy (VBool false : value Samples.closure) = false ∧
  provider_value
    (M11151.o Samples.apply
       {| M11151.disableParentContext := VBool false;
          M11151.components := VFunction (Samples.Extend Samples.override);
          M11151.children := tt |} (Some (VMapping Samples.base)))
  = Samples.apply (Samples.Extend Samples.override)
      (default (VMapping ∅) (Some (VMapping Samples.base))).
Proof.
  split; [reflexivity|].
  apply (provider_enabled_function Samples.apply (VBool false)
           (Samples.Extend Samples.override) tt (Some (VMapping Samples.base))).
  reflexivity.
Defined.

(** X9. With the parent context disabled, every falsy [components] ([undefined],
    [null], [false]) makes the provider install the module's empty default. *)
Theorem provider_disabled_falsy_components {fn node}
    (call : fn → value fn → value fn)
    (flag comps : value fn) (ch : node) (ambient : option (value fn)) :
  truthy flag = true →
  truthy comps = false →
  provider_value
    (M11151.o call
       {| M11151.disableParentContext := flag;
          M11151.components := comps;
          M11151.children := ch |} ambient)
  = VMapping ∅.
Proof.
  intros Hflag Hcomps. rewrite o_value.
  cbn [M11151.disableParentContext M11151.components]. rewrite Hflag.
  destruct comps; try discriminate Hcomps; unfold js_or;
    cbn [truthy] in *; try rewrite Hcomps; reflexivity.
Qed.

Lemma provider_disabled_falsy_components_witness :
  truthy (VBool true : value Samples.closure) = true ∧
  truthy (VNull : value Samples.closure) = false ∧
  provider_value
    (M11151.o Samples.apply
       {| M11151.disableParentContext := VBool true;
          M11151.components := VNull;
          M11151.children := tt |} (Some (VMapping Samples.base)))
  = VMapping ∅.
Proof.
  split; [reflexivity|]. split; [reflexivity|].
  apply (provider_disabled_falsy_components Samples.apply (VBool true) VNull tt
           (Some (VMapping Samples.base))); reflexivity.
Defined.

(** X10. Two nested providers, neither disabling the parent context: below the
    inner one an entry comes from the inner override, else from the outer
    override, else from the context above both. *)
Theorem provider_nesting {fn node} (call : fn → value fn → value fn)
    (outer_flag inner_flag : value fn) (B O1 O2 : mapping) (ch1 ch2 : node) :
  truthy outer_flag = false →
  truthy inner_flag = false →
  ∃ R : mapping,
    provider_value
      (M11151.o call
         {| M11151.disableParentContext := inner_flag;
            M11151.components := VMapping O2;
            M11151.children := ch2 |}
         (Some (provider_value
                  (M11151.o call
                     {| M11151.disableParentContext := outer_flag;
                        M11151.components := VMapping O1;
                        M11151.children := ch1 |} (Some (VMapping B))))))
    = VMapping R ∧
    ∀ k : string,
      R !! k = match O2 !! k with
               | Some x => Some x
               | None => match O1 !! k with
                         | Some x => Some x
                         | None => B !! k
                         end
               end.
Proof.
  intros Houter Hinner. exists (O2 ∪ (O1 ∪ B)). split.
  - rewrite !o_value. cbn [M11151.disableParentContext M11151.components].
    rewrite Houter, Hinner. by rewrite !c_mapping.
  - intros k. by rewrite !union_lookup_first.
Qed.

Lemma provider_nesting_witness :
  truthy (VUndefined : value Samples.closure) = false ∧
  truthy (VNull : value Samples.closure) = false ∧
  ∃ R : mapping,
    provider_value
      (M11151.o Samples.apply
         {| M11151.disableParentContext := VNull;
            M11151.components := VMapping Samples.override;
            M11151.children := tt |}
         (Some (provider_value
                  (M11151.o Samples.apply
                     {| M11151.disableParentContext := VUndefined;
                        M11151.components := VMapping Samples.base;
                        M11151.children := tt |} (Some (VMapping ∅))))))
    = VMapping R ∧
    ∀ k : string,
      R !! k = match Samples.override !! k with
               | Some x => Some x
               | None => match Samples.base !! k with
                         | Some x => Some x
                         | None => (∅ : mapping) !! k
                         end
               end.
Proof.
  split; [reflexivity|]. split; [reflexivity|].
  apply (provider_nesting Samples.apply VUndefined VNull ∅ Samples.base
           Samples.override tt tt); reflexivity.
Defined.

(** X11. A provider that disables the parent context cuts its subtree off: below
    an ordinary provider nested in it, the entries are those of the two
    overrides only, whatever the context above the outer provider is. *)
Theorem provider_isolation {fn node} (call : fn → value fn → value fn)
    (outer_flag inner_flag : value fn) (O1 O2 : mapping) (ch1 ch2 : node)
    (ambient : option (value fn)) :
  truthy outer_flag = true →
  truthy inner_flag = false →
  ∃ R : mapping,
    provider_value
      (M11151.o call
         {| M11151.disableParentContext := inner_flag;
            M11151.components := VMapping O2;
            M11151.children := ch2 |}
         (Some (provider_value
                  (M11151.o call
                     {| M11151.disableParentContext := outer_flag;
                        M11151.components := VMapping O1;
                        M11151.children := ch1 |} ambient))))
    = VMapping R ∧
    ∀ k : string,
      R !! k = match O2 !! k with
               | Some x => Some x
               | None => O1 !! k
               end.
Proof.
  intros Houter Hinner. exists (O2 ∪ O1). split; [|apply union_lookup_first].
  rewrite !o_value. cbn [M11151.disableParentContext M11151.components].
  rewrite Houter, Hinner. cbn [js_or truthy]. apply c_mapping.
Qed.

Lemma provider_isolation_witness :
  truthy (VBool true : value Samples.closure) = true ∧
  truthy (VBool false : value Samples.closure) = false ∧
  ∃ R : mapping,
    provider_value
      (M11151.o Samples.apply
         {| M11151.disableParentContext := VBool false;
            M11151.components := VMapping Samples.override;
            M11151.children := tt |}
         (Some (provider_value
                  (M11151.o Samples.apply
                     {| M11151.disableParentContext := VBool true;
                        M11151.components := VMapping ∅;
                        M11151.children := tt |} (Some (VMapping Samples.base))))))
    = VMapping R ∧
    ∀ k : string,
      R !! k = match Samples.override !! k with
               | Some x => Some x
               | None => (∅ : mapping) !! k
               end.
Proof.
  split; [reflexivity|]. split; [reflexivity|].
  apply (provider_isolation Samples.apply (VBool true) (VBool false) ∅
           Samples.override tt tt (Some (VMapping Samples.base))); reflexivity.
Defined.

(** ** Further properties of the page *)


Lemma u_unfold {fn} (call : fn → value fn → value fn)
    (e : M16956.props) (ambient : option (value fn)) :
  M16956.u call e ambient
  = emap (λ x, M16956.component_table call e ambient !! x) M16956.page_body.
Proof. reflexivity. Qed.

Lemma emap_emap {T U V} (g : U → V) (f : T → U) (x : element T) :
  emap g (emap f x) = emap (λ t, g (f t)) x.
Proof.
  induction x as [s|type props children IH|children IH] using element_ind;
    cbn [emap]; [reflexivity| |]; f_equal;
    rewrite List.map_map; apply List.map_ext_Forall, IH.
Qed.

Lemma text_content_emap {T U} (f : T → U) (x : element T) :
  text_content (emap f x) = text_content x.
Proof.
  induction x as [s|type props children IH|children IH] using element_ind;
    cbn [emap text_content]; [reflexivity| |];
    induction IH as [|child rest Hchild _ IHrest]; cbn [List.map foldr];
    congruence.
Qed.

(** Two ways of choosing element types that agree on the types a tree
    mentions give the same tree. *)
Lemma emap_ext_types {T U} `{EqDecision T} (f g : T → U) (x : element T) :
  Forall (λ t, f t = g t) (types_used x) → emap f x = emap g x.
Proof.
  induction x as [s|type props children IH|children IH] using element_ind;
    cbn [emap types_used]; intros Hfg; [reflexivity| |].
  - apply Forall_cons in Hfg as [Htype Hfg]. rewrite Htype. f_equal.
    induction IH as [|child rest Hchild _ IHrest]; [reflexivity|].
    cbn [flat_map] in Hfg. apply Forall_app in Hfg as [Hc Hr].
    cbn [List.map]. f_equal; auto.
  - f_equal.
    induction IH as [|child rest Hchild _ IHrest]; [reflexivity|].
    cbn [flat_map] in Hfg. apply Forall_app in Hfg as [Hc Hr].
    cbn [List.map]. f_equal; auto.
Qed.

Lemma d_unfold {fn} (call : fn → value fn → value fn)
    (e : M16956.props) (ambient : option (value fn)) :
  M16956.d call (Some e) ambient =
  match match own_props (M16956.components e) !! "wrapper" with
        | Some t => Some t
        | None => own_props (default M11151.a ambient) !! "wrapper"
        end with
  | Some t => if renderer_truthy t then M16956.Wrapped t e e
              else M16956.Plain (M16956.u call e ambient)
  | None => M16956.Plain (M16956.u call e ambient)
  end.
Proof.
  unfold M16956.d, mbind, hook_bind, mret, hook_ret.
  cbn [default from_option id].
  rewrite c_unfold. cbn iota.
  rewrite !spread_lookup. cbn [own_props]. rewrite !spread_lookup.
  cbn [own_props]. rewrite !lookup_empty.
  destruct (own_props (M16956.components e) !! "wrapper") as [t|].
  - destruct (renderer_truthy t); reflexivity.
  - destruct (own_props (default M11151.a ambient) !! "wrapper") as [t|];
      [destruct (renderer_truthy t)|]; reflexivity.
Qed.


(** X14. Overrides change element types and nothing else: with the types erased,
    every rendering is the page body as written, and its text is the text of
    the body. *)
Theorem page_shape_fixed {fn} (call : fn → value fn → value fn)
    (e : M16956.props) (ambient : option (value fn)) :
  emap (λ _, tt) (M16956.u call e ambient) = emap (λ _, tt) M16956.page_body ∧
  text_content (M16956.u call e ambient) = text_content M16956.page_body.
Proof.
  rewrite u_unfold. split; [apply emap_emap|apply text_content_emap].
Qed.

(** X15. The rendering depends on the context and on [components] through the
    seven local tags only: two renders whose tables agree on these tags give
    the same tree. *)
Theorem page_reads_local_tags_only {fn} (call : fn → value fn → value fn)
    (e1 e2 : M16956.props) (ambient1 ambient2 : option (value fn)) :
  Forall (λ k, M16956.component_table call e1 ambient1 !! k
               = M16956.component_table call e2 ambient2 !! k) local_tags →
  M16956.u call e1 ambient1 = M16956.u call e2 ambient2.
Proof.
  intros Hagree. rewrite !u_unfold. apply emap_ext_types.
  rewrite Forall_forall in Hagree. apply Forall_forall. intros k Hk.
  apply Hagree. revert k Hk. apply Forall_forall.
  apply (bool_decide_unpack _). by vm_compute.
Qed.

Lemma page_reads_local_tags_only_witness :
  Forall (λ k,
      M16956.component_table Samples.apply
        {| M16956.components := VMapping {[ "wrapper" := Component "Layout" ]} |}
        None !! k
      = M16956.component_table Samples.apply
          {| M16956.components := VUndefined |}
          (Some (VMapping {[ "a" := Component "Link" ]})) !! k)
    local_tags ∧
  M16956.u Samples.apply
    {| M16956.components := VMapping {[ "wrapper" := Component "Layout" ]} |} None
  = M16956.u Samples.apply {| M16956.components := VUndefined |}
      (Some (VMapping {[ "a" := Component "Link" ]})).
Proof.
  assert (Hagree :
    Forall (λ k,
        M16956.component_table Samples.apply
          {| M16956.components := VMapping {[ "wrapper" := Component "Layout" ]} |}
          None !! k
        = M16956.component_table Samples.apply
            {| M16956.components := VUndefined |}
            (Some (VMapping {[ "a" := Component "Link" ]})) !! k)
      local_tags).
  { apply (bool_decide_unpack _). by vm_compute. }
  split; [exact Hagree|].
  exact (page_reads_local_tags_only Samples.apply _ _ None
           (Some (VMapping {[ "a" := Component "Link" ]})) Hagree).
Defined.

(** X16. Without a [wrapper] entry in [components] and in the inherited context,
    the page's default export returns the page body itself; called with no
    argument it renders the body with no [components]. *)
Theorem page_without_wrapper {fn} (call : fn → value fn → value fn)
    (arg : option M16956.props) (ambient : option (value fn)) :
  own_props (M16956.components
               (default {| M16956.components := VUndefined |} arg))
    !! "wrapper" = None →
  own_props (default M11151.a ambient) !! "wrapper" = None →
  M16956.d call arg ambient
  = M16956.Plain
      (M16956.u call (default {| M16956.components := VUndefined |} arg) ambient).
Proof.
  intros Hsupplied Hinherited.
  transitivity
    (M16956.d call (Some (default {| M16956.components := VUndefined |} arg))
       ambient); [by destruct arg|].
  rewrite d_unfold, Hsupplied, Hinherited. reflexivity.
Qed.

Lemma page_without_wrapper_witness :
  own_props (M16956.components
               (default {| M16956.components := VUndefined |}
                  (None : option (@M16956.props Samples.closure))))
    !! "wrapper" = None ∧
  own_props (default M11151.a (Some (VMapping Samples.base : value Samples.closure)))
    !! "wrapper" = None ∧
  M16956.d Samples.apply None (Some (VMapping Samples.base))
  = M16956.Plain
      (M16956.u Samples.apply
         (default {| M16956.components := VUndefined |} None)
         (Some (VMapping Samples.base))).
Proof.
  split; [reflexivity|]. split; [reflexivity|].
  apply (page_without_wrapper Samples.apply None (Some (VMapping Samples.base)));
    reflexivity.
Defined.

(** X17. A truthy [wrapper] entry of [components] is the wrapper the default
    export uses, whatever wrapper the inherited context holds; the wrapper
    element and the page element below it both get the caller's properties. *)
Theorem page_supplied_wrapper {fn} (call : fn → value fn → value fn)
    (e : M16956.props) (w : renderer) (ambient : option (value fn)) :
  own_props (M16956.components e) !! "wrapper" = Some w →
  renderer_truthy w = true →
  M16956.d call (Some e) ambient = M16956.Wrapped w e e.
Proof.
  intros Hsupplied Hw. rewrite d_unfold, Hsupplied, Hw. reflexivity.
Qed.

Lemma page_supplied_wrapper_witness :
  own_props (VMapping {[ "wrapper" := Component "Layout" ]} : value Samples.closure)
    !! "wrapper" = Some (Component "Layout") ∧
  renderer_truthy (Component "Layout") = true ∧
  M16956.d Samples.apply
    (Some {| M16956.components :=
               VMapping {[ "wrapper" := Component "Layout" ]} |})
    (Some (VMapping {[ "wrapper" := Component "Inherited" ]}))
  = M16956.Wrapped (Component "Layout")
      {| M16956.components := VMapping {[ "wrapper" := Component "Layout" ]} |}
      {| M16956.components := VMapping {[ "wrapper" := Component "Layout" ]} |}.
Proof.
  split; [reflexivity|]. split; [reflexivity|].
  apply (page_supplied_wrapper Samples.apply
           {| M16956.components :=
                VMapping {[ "wrapper" := Component "Layout" ]} |}
           (Component "Layout")
           (Some (VMapping {[ "wrapper" := Component "Inherited" ]})));
    reflexivity.
Defined.

(** X18. When [components] has no [wrapper] entry, a truthy [wrapper] of the
    inherited context is used. *)
Theorem page_inherited_wrapper {fn} (call : fn → value fn → value fn)
    (e : M16956.props) (w : renderer) (ambient : option (value fn)) :
  own_props (M16956.components e) !! "wrapper" = None →
  own_props (default M11151.a ambient) !! "wrapper" = Some w →
  renderer_truthy w = true →
  M16956.d call (Some e) ambient = M16956.Wrapped w e e.
Proof.
  intros Hsupplied Hinherited Hw.
  rewrite d_unfold, Hsupplied, Hinherited, Hw. reflexivity.
Qed.

Lemma page_inherited_wrapper_witness :
  own_props (VUndefined : value Samples.closure) !! "wrapper" = None ∧
  own_props (default M11151.a
               (Some (VMapping {[ "wrapper" := Component "Inherited" ]}
                      : value Samples.closure)))
    !! "wrapper" = Some (Component "Inherited") ∧
  renderer_truthy (Component "Inherited") = true ∧
  M16956.d Samples.apply (Some {| M16956.components := VUndefined |})
    (Some (VMapping {[ "wrapper" := Component "Inherited" ]}))
  = M16956.Wrapped (Component "Inherited")
      {| M16956.components := VUndefined |}
      {| M16956.components := VUndefined |}.
Proof.
  split; [reflexivity|]. split; [reflexivity|]. split; [reflexivity|].
  apply (page_inherited_wrapper Samples.apply
           {| M16956.components := VUndefined |} (Component "Inherited")
           (Some (VMapping {[ "wrapper" := Component "Inherited" ]})));
    reflexivity.
Defined.

(** X19. A falsy [wrapper] entry of [components] (the empty string) switches
    wrapping off, also when the inherited context holds a wrapper: the
    default export returns the page body. *)
Theorem page_falsy_wrapper {fn} (call : fn → value fn → value fn)
    (e : M16956.props) (w : renderer) (ambient : option (value fn)) :
  own_props (M16956.components e) !! "wrapper" = Some w →
  renderer_truthy w = false →
  M16956.d call (Some e) ambient = M16956.Plain (M16956.u call e ambient).
Proof.
  intros Hsupplied Hw. rewrite d_unfold, Hsupplied, Hw. reflexivity.
Qed.

Lemma page_falsy_wrapper_witness :
  own_props (VMapping {[ "wrapper" := Intrinsic EmptyString ]} : value Samples.closure)
    !! "wrapper" = Some (Intrinsic EmptyString) ∧
  renderer_truthy (Intrinsic EmptyString) = false ∧
  M16956.d Samples.apply
    (Some {| M16956.components :=
               VMapping {[ "wrapper" := Intrinsic EmptyString ]} |})
    (Some (VMapping {[ "wrapper" := Component "Inherited" ]}))
  = M16956.Plain
      (M16956.u Samples.apply
         {| M16956.components :=
              VMapping {[ "wrapper" := Intrinsic EmptyString ]} |}
         (Some (VMapping {[ "wrapper" := Component "Inherited" ]}))).
Proof.
  split; [reflexivity|]. split; [reflexivity|].
  apply (page_falsy_wrapper Samples.apply
           {| M16956.components :=
                VMapping {[ "wrapper" := Intrinsic EmptyString ]} |}
           (Intrinsic EmptyString)
           (Some (VMapping {[ "wrapper" := Component "Inherited" ]})));
    reflexivity.
Defined.
